(** * Flashlight assembly choreography (flashlight_assembly.py)

    A shallow embedding of the robot script and the proofs of its
    ordering and configuration properties.

    The script talks to one robot handle of the RoboDK runtime.  It never
    reads anything back from it: every call is a command (a move, a speed
    setting, a piece of custom controller code).  The handle is therefore
    modelled by the list of commands the runtime has received so far, and
    every function of the script threads that list.

    Numbers.  The script performs no arithmetic on its coordinates, heights
    and angles: literals are stored in tables, passed around and handed to
    the runtime unchanged.  A Python number is modelled by the rational [Q]
    holding the decimal value of its literal; slot ids and the instruction
    type are Python integers, modelled by [Z]. *)

From Stdlib Require Import QArith ZArith String List.
From stdpp Require Import gmap strings list fin_maps.

Open Scope string_scope.
Open Scope list_scope.
Open Scope Z_scope.

(** ** Python exceptions and results *)

Inductive exn : Type :=
| KeyError      (* dict lookup of a missing key *)
| IndexError    (* list index out of range *)
| ValueError.   (* unpacking a sequence of the wrong length *)

Inductive result (A : Type) : Type :=
| Ok (a : A)
| Raise (e : exn).
Arguments Ok {A} a.
Arguments Raise {A} e.

#[global] Instance result_ret : MRet result := λ A a, Ok a.
#[global] Instance result_bind : MBind result := λ A B f m,
  match m with
  | Ok a => f a
  | Raise e => Raise e
  end.

(** [d[k]] on a dict. *)
Definition dict_get `{Countable K} {V} (d : gmap K V) (k : K) : result V :=
  match d !! k with
  | Some v => Ok v
  | None => Raise KeyError
  end.

(** [l[i]] on a list, for the non-negative literal indices of the script. *)
Definition list_get {V} (l : list V) (i : nat) : result V :=
  match l !! i with
  | Some v => Ok v
  | None => Raise IndexError
  end.

(** [x, y = l]. *)
Definition unpack2 {V} (l : list V) : result (V * V) :=
  match l with
  | [x; y] => Ok (x, y)
  | _ => Raise ValueError
  end.

(** ** Poses, targets and commands *)

(** [Pose(x, y, z, rx, ry, rz)] of robodk: a Cartesian position in mm and
    an orientation in degrees.  The record keeps the six arguments of the
    call. *)
Record Pose : Type := mkPose {
  pose_x : Q; pose_y : Q; pose_z : Q;
  pose_rx : Q; pose_ry : Q; pose_rz : Q
}.

(** [MoveJ] and [MoveL] take either a list of joint angles or a pose. *)
Inductive target : Type :=
| Joints (j : list Q)
| Cartesian (p : Pose).

(** The methods of the robot handle that the script calls. *)
Inductive cmd : Type :=
| setSpeed (v : Q)
| setAcceleration (a : Q)
| setSpeedJoints (v : Q)
| MoveJ (t : target)
| MoveL (t : target)
| RunCodeCustom (code : string) (run_type : Z).

(** The robot handle: the commands received by the runtime, oldest first. *)
Definition Robot : Type := list cmd.

(** ** The monad of the script: robot state and exceptions

    An exception stops the function, but the commands already sent stay
    sent: the state survives a [Raise]. *)

Definition M (A : Type) : Type := Robot → Robot * result A.

#[global] Instance M_ret : MRet M := λ A a r, (r, Ok a).
#[global] Instance M_bind : MBind M := λ A B f m r,
  match m r with
  | (r', Ok a) => f a r'
  | (r', Raise e) => (r', Raise e)
  end.

(** A pure computation inside the script. *)
Definition lift {A} (x : result A) : M A := λ r, (r, x).

(** One call on the robot handle. *)
Definition send (c : cmd) : M unit := λ r, (r ++ [c], Ok ()).

(** [for x in l: body(x)]. *)
Fixpoint for_each {A} (l : list A) (body : A → M unit) : M unit :=
  match l with
  | [] => mret ()
  | x :: l' => body x;; for_each l' body
  end.

(** [range(n)]. *)
Definition range (n : nat) : list nat := seq 0 n.

(** The commands a computation sends to a fresh handle, and its outcome. *)
Definition issued {A} (m : M A) : list cmd := (m []).1.
Definition outcome {A} (m : M A) : result A := (m []).2.

(** ** Configuration constants *)

Definition INSTRUCTION_INSERT_CODE : Z := 0.

Definition GLOBAL_SPEED : Q := 600.
Definition GLOBAL_ACCELERATION : Q := 500.

Definition tray_coords : gmap Z (list Q) :=
  <[0 := [-414.4; -456.17]%Q]>
  (<[1 := [-334.85; -456.72]%Q]>
  (<[2 := [-259.08; -457.45]%Q]>
  (<[3 := [-182.53; -456.90]%Q]>
  (<[4 := [-256.8; -458.1]%Q]> ∅)))).

Definition CLEAR_HEIGHT : Q := 130.
Definition HOME_POSITION : list Q := [0; -90; 0; -90; 0; 0]%Q.
Definition TEST_POSITION : list Q := [90; -90; 90; 270; -90; -270]%Q.

Definition GRIP_HEIGHTS : gmap string Q :=
  <["endcap" := 10%Q]>
  (<["battery" := 34%Q]>
  (<["head" := 65.3%Q]>
  (<["pedestal" := 60.9%Q]> ∅))).

Definition CLAMP_XY : list Q := [-322.98; 38.3]%Q.

Definition CLAMP_HEIGHTS : gmap string Q :=
  <["release_head" := 163.9%Q]>
  (<["release_battery" := 192.751%Q]>
  (<["release_endcap" := 197.31%Q]>
  (<["pickup_flashlight" := 187%Q]>
  (<["clear" := 250%Q]> ∅)))).

Definition ENDCAP_CLR_JOINTS : list Q :=
  [37.41; -72.76; 83.21; -100.44; -89.73; -142.51]%Q.
Definition INTERMEDIATE_JOINTS : list Q :=
  [8.348806; -77.787199; 103.336014; -25.548815; 8.348806; -194.849375]%Q.
Definition PED_CLR_JOINTS : list Q :=
  [15.32; -96.4; 143.41; -47.02; 15.3; -180]%Q.
Definition PED_DROP_JOINTS : list Q :=
  [15.31; -84.25; 147.34; -63.09; 15.3; -180]%Q.

Definition GRIP_WAIT_TIME : Q := 2.0.
Definition CLAMP_APPROACH_SPEED : Q := 200.
Definition CLAMP_OPERATION_SPEED : Q := 100.

(** ** Helper functions *)

Definition set_motion_params (speed acceleration : Q) : M unit :=
  send (setSpeed speed);;
  send (setAcceleration acceleration).

Definition tray_pose (tray_index : Z) (z : Q) : result Pose :=
  xy ← dict_get tray_coords tray_index;
  '(x, y) ← unpack2 xy;
  Ok (mkPose x y z 180 0 90).

(** ** Core functions *)

Definition goto_and_pickup_tray (tray_slot_index : Z)
    (pickup_height clear_height : Q) : M unit :=
  set_motion_params 1000 GLOBAL_ACCELERATION;;
  if tray_slot_index =? 0 then
    send (MoveJ (Joints ENDCAP_CLR_JOINTS));;
    x ← lift (c ← dict_get tray_coords 0; list_get c 0);
    y ← lift (c ← dict_get tray_coords 0; list_get c 1);
    send (MoveL (Cartesian (mkPose x y pickup_height 180 0 90)));;
    send (RunCodeCustom "rq_close_and_wait()" INSTRUCTION_INSERT_CODE);;
    x ← lift (c ← dict_get tray_coords 0; list_get c 0);
    y ← lift (c ← dict_get tray_coords 0; list_get c 1);
    send (MoveL (Cartesian (mkPose x y clear_height 180 0 90)))
  else
    approach ← lift (tray_pose tray_slot_index clear_height);
    pickup ← lift (tray_pose tray_slot_index pickup_height);
    send (MoveJ (Cartesian approach));;
    send (MoveL (Cartesian pickup));;
    send (RunCodeCustom "rq_close_and_wait()" INSTRUCTION_INSERT_CODE);;
    send (MoveL (Cartesian approach)).

Definition goto_and_release_tray (tray_slot_index : Z)
    (release_height clear_height : Q) : M unit :=
  approach ← lift (tray_pose tray_slot_index clear_height);
  release ← lift (tray_pose tray_slot_index release_height);
  set_motion_params 1000 GLOBAL_ACCELERATION;;
  send (MoveL (Cartesian approach));;
  send (setSpeed 200);;
  send (MoveL (Cartesian release));;
  send (RunCodeCustom "rq_open()" INSTRUCTION_INSERT_CODE);;
  send (MoveL (Cartesian approach)).

Definition move_endcap_to_pedestal : M unit :=
  set_motion_params 1000 GLOBAL_ACCELERATION;;
  send (MoveJ (Joints INTERMEDIATE_JOINTS));;
  send (MoveJ (Joints PED_CLR_JOINTS));;
  send (MoveL (Joints PED_DROP_JOINTS));;
  send (RunCodeCustom "rq_open()" INSTRUCTION_INSERT_CODE);;
  send (MoveJ (Joints PED_CLR_JOINTS)).

(** ** Integrated clamp functions *)

Definition pickup_from_clamp (pickup_height clear_height : Q) : M unit :=
  set_motion_params 1000 GLOBAL_ACCELERATION;;
  cx ← lift (list_get CLAMP_XY 0);
  cy ← lift (list_get CLAMP_XY 1);
  let safe_pose := mkPose cx cy clear_height 180 0 90 in
  cx ← lift (list_get CLAMP_XY 0);
  cy ← lift (list_get CLAMP_XY 1);
  let pickup_pose := mkPose cx cy pickup_height 180 0 90 in
  send (setSpeed 200);;
  send (MoveL (Cartesian pickup_pose));;
  send (RunCodeCustom "rq_close_and_wait()" INSTRUCTION_INSERT_CODE);;
  send (MoveL (Cartesian safe_pose)).

Definition release_into_clamp (release_height clear_height : Q) : M unit :=
  set_motion_params 1000 GLOBAL_ACCELERATION;;
  cx ← lift (list_get CLAMP_XY 0);
  cy ← lift (list_get CLAMP_XY 1);
  let safe_pose := mkPose cx cy clear_height 180 0 90 in
  cx ← lift (list_get CLAMP_XY 0);
  cy ← lift (list_get CLAMP_XY 1);
  let release_pose := mkPose cx cy release_height 180 0 90 in
  send (MoveJ (Cartesian safe_pose));;
  send (setSpeed 200);;
  send (MoveL (Cartesian release_pose));;
  send (RunCodeCustom "rq_open()" INSTRUCTION_INSERT_CODE);;
  send (MoveL (Cartesian safe_pose)).

(** The local constants of [tighten_cap]. *)
Definition new_clamp_x : Q := -322.25.
Definition new_clamp_y : Q := 38.78.
Definition initial_turning_angle : list Q :=
  [-26.51; -115.18; 112.67; -87.48; -90; -206.51]%Q.
Definition final_turning_angle : list Q :=
  [-26.510124; -115.194661; 113.040864; -87.836005; -89.999890; 11.929876]%Q.
Definition tighten_torque_pose : list Q :=
  [-26.51; -115.18; 112.67; -87.48; -90; -206.51]%Q.

(** The body of the loop of [tighten_cap]; the loop variable is unused. *)
Definition tighten_cap_cycle (i : nat) : M unit :=
  send (RunCodeCustom "rq_close_and_wait()" INSTRUCTION_INSERT_CODE);;
  send (MoveJ (Joints final_turning_angle));;
  send (RunCodeCustom "rq_open()" INSTRUCTION_INSERT_CODE);;
  send (setSpeedJoints 200);;
  send (MoveJ (Joints initial_turning_angle)).

Definition tighten_cap : M unit :=
  set_motion_params 1000 GLOBAL_ACCELERATION;;
  clear ← lift (dict_get CLAMP_HEIGHTS "clear");
  let safe_pose := mkPose new_clamp_x new_clamp_y clear 180 0 90 in
  send (RunCodeCustom "clamp()" INSTRUCTION_INSERT_CODE);;
  send (MoveJ (Cartesian safe_pose));;
  send (MoveL (Joints initial_turning_angle));;
  send (setSpeedJoints 700);;
  for_each (range 6) tighten_cap_cycle;;
  send (MoveJ (Joints tighten_torque_pose));;
  send (RunCodeCustom
          "tighten_torque(2, -205.27, -115.27, 2, 2, 1, 100, 100, 50)"
          INSTRUCTION_INSERT_CODE);;
  send (RunCodeCustom "unclamp()" INSTRUCTION_INSERT_CODE).

(** ** Main program *)

Definition main : M unit :=
  send (RunCodeCustom "unclamp()" INSTRUCTION_INSERT_CODE);;
  send (MoveJ (Joints HOME_POSITION));;
  set_motion_params 1000 GLOBAL_ACCELERATION;;
  h ← lift (dict_get GRIP_HEIGHTS "endcap");
  goto_and_pickup_tray 0 h CLEAR_HEIGHT;;
  move_endcap_to_pedestal;;
  h ← lift (dict_get GRIP_HEIGHTS "head");
  goto_and_pickup_tray 2 h CLEAR_HEIGHT;;
  rh ← lift (dict_get CLAMP_HEIGHTS "release_head");
  c ← lift (dict_get CLAMP_HEIGHTS "clear");
  release_into_clamp rh c;;
  h ← lift (dict_get GRIP_HEIGHTS "battery");
  goto_and_pickup_tray 1 h CLEAR_HEIGHT;;
  rh ← lift (dict_get CLAMP_HEIGHTS "release_battery");
  c ← lift (dict_get CLAMP_HEIGHTS "clear");
  release_into_clamp rh c;;
  h ← lift (dict_get GRIP_HEIGHTS "pedestal");
  goto_and_pickup_tray 3 h CLEAR_HEIGHT;;
  tighten_cap;;
  c ← lift (dict_get CLAMP_HEIGHTS "clear");
  pickup_from_clamp 185 c;;
  goto_and_release_tray 4 89.90 CLEAR_HEIGHT;;
  send (MoveJ (Joints HOME_POSITION)).

(** ** Reading a command trace *)

#[global] Instance Q_eq_dec : EqDecision Q.
Proof. solve_decision. Defined.
#[global] Instance Pose_eq_dec : EqDecision Pose.
Proof. solve_decision. Defined.
#[global] Instance target_eq_dec : EqDecision target.
Proof. solve_decision. Defined.
#[global] Instance cmd_eq_dec : EqDecision cmd.
Proof. solve_decision. Defined.

(** The target of a move command. *)
Definition target_of (c : cmd) : option target :=
  match c with
  | MoveJ t | MoveL t => Some t
  | _ => None
  end.

(** The move commands of a trace, and the first of them. *)
Definition moves (cmds : list cmd) : list cmd :=
  filter (λ c, is_Some (target_of c)) cmds.
Definition first_move (cmds : list cmd) : option cmd := head (moves cmds).

(** The poses that a trace sends, in order. *)
Definition pose_of (c : cmd) : option Pose :=
  match target_of c with
  | Some (Cartesian p) => Some p
  | _ => None
  end.
Definition poses (cmds : list cmd) : list Pose := omap pose_of cmds.

(** How often a command occurs in a trace. *)
Definition occurrences (c : cmd) (cmds : list cmd) : nat :=
  length (filter (λ c', c' = c) cmds).

(** Joint-interpolated moves to a pose. *)
Definition cartesian_MoveJ (c : cmd) : bool :=
  match c with
  | MoveJ (Cartesian _) => true
  | _ => false
  end.

(** The orientation [180, 0, 90] of the docstring of [tray_pose]. *)
Definition std_orientation (p : Pose) : Prop :=
  pose_rx p = 180%Q ∧ pose_ry p = 0%Q ∧ pose_rz p = 90%Q.

(** The joint-angle targets of the tray and clamp operations. *)
Definition explicit_joint_targets : list (list Q) :=
  [ENDCAP_CLR_JOINTS; initial_turning_angle; final_turning_angle;
   tighten_torque_pose].

(** A command keeps the fixed orientation: a pose has it, a joint target is
    one of the explicit ones. *)
Definition orientation_ok (c : cmd) : Prop :=
  match target_of c with
  | Some (Cartesian p) => std_orientation p
  | Some (Joints j) => j ∈ explicit_joint_targets
  | None => True
  end.

(** A pose is anchored at the point (x, y). *)
Definition anchored_at (x y : Q) (p : Pose) : Prop :=
  pose_x p = x ∧ pose_y p = y.

(** The tray slot whose configured coordinate is (x, y), if any. *)
Definition slot_at (x y : Q) : option Z :=
  fst <$> List.find
    (λ kv : Z * list Q,
       match kv.2 with
       | [x'; y'] => Qeq_bool x x' && Qeq_bool y y'
       | _ => false
       end)
    (map_to_list tray_coords).

Definition slot_of_target (t : target) : option Z :=
  match t with
  | Cartesian p => slot_at (pose_x p) (pose_y p)
  | Joints _ => None
  end.

(** Adjacent repetitions count once. *)
Fixpoint collapse `{EqDecision A} (l : list A) : list A :=
  match l with
  | x :: l' =>
      match l' with
      | y :: _ => if decide (x = y) then collapse l' else x :: collapse l'
      | [] => [x]
      end
  | [] => []
  end.

(** The tray slots a trace visits: where each move goes (a tray slot or
    elsewhere), stays at one place counted once, then the tray slots kept. *)
Definition visited_slots (cmds : list cmd) : list Z :=
  omap id (collapse (slot_of_target <$> omap target_of cmds)).

(** ** The clamp *)

Inductive clamp_state : Type := Clamped | Unclamped.

(** Modelled from the spec: the controller-side scripts [clamp()] and
    [unclamp()] are not part of the script.  The spec names them
    clamp-engage and clamp-release and assumes of the latter no state change
    beyond unclamped; every other command leaves the clamp as it is. *)
Definition clamp_step (s : clamp_state) (c : cmd) : clamp_state :=
  match c with
  | RunCodeCustom code _ =>
      if decide (code = "clamp()") then Clamped
      else if decide (code = "unclamp()") then Unclamped
      else s
  | _ => s
  end.

Definition clamp_after (s : clamp_state) (cmds : list cmd) : clamp_state :=
  foldl clamp_step s cmds.

Definition unclamp_cmd : cmd := RunCodeCustom "unclamp()" INSTRUCTION_INSERT_CODE.

(** The steps of a segment: its moves and its custom-code calls (gripper,
    clamp, torque), without the speed and acceleration settings. *)
Definition is_step (c : cmd) : bool :=
  match c with
  | MoveJ _ | MoveL _ | RunCodeCustom _ _ => true
  | _ => false
  end.
Definition choreography (cmds : list cmd) : list cmd := List.filter is_step cmds.

(** The fixed orientation and the anchors are decidable on a trace. *)
#[global] Instance std_orientation_dec p : Decision (std_orientation p).
Proof. unfold std_orientation. apply _. Defined.
#[global] Instance orientation_ok_dec c : Decision (orientation_ok c).
Proof.
  unfold orientation_ok. destruct (target_of c) as [[j|p]|]; apply _.
Defined.
#[global] Instance anchored_at_dec x y p : Decision (anchored_at x y p).
Proof. unfold anchored_at. apply _. Defined.

(** ** Gripper commands and speed settings along a trace *)

Definition close_cmd : cmd :=
  RunCodeCustom "rq_close_and_wait()" INSTRUCTION_INSERT_CODE.
Definition open_cmd : cmd := RunCodeCustom "rq_open()" INSTRUCTION_INSERT_CODE.

Definition is_gripper (c : cmd) : bool :=
  bool_decide (c = close_cmd ∨ c = open_cmd).

(** Every gripper command that has a command before and after it, with
    those two neighbours. *)
Fixpoint actuations (cmds : list cmd) : list (cmd * cmd * cmd) :=
  match cmds with
  | a :: t =>
      match t with
      | g :: c :: _ =>
          if is_gripper g then (a, g, c) :: actuations t else actuations t
      | _ => []
      end
  | [] => []
  end.

(** The gripper acts at the bottom of a vertical stroke: a linear move to a
    pose before it, a linear move to a pose at the same (x, y) after it. *)
Definition vertical (t : cmd * cmd * cmd) : Prop :=
  ∃ p q, t.1.1 = MoveL (Cartesian p) ∧ t.2 = MoveL (Cartesian q)
         ∧ pose_x p = pose_x q ∧ pose_y p = pose_y q.

(** The heights (low, high) of the strokes between two poses. *)
Definition stroke_heights (cmds : list cmd) : list (Q * Q) :=
  omap (λ t : cmd * cmd * cmd,
          match pose_of t.1.1, pose_of t.2 with
          | Some p, Some q => Some (pose_z p, pose_z q)
          | _, _ => None
          end)
       (actuations cmds).

(** Each linear move of a trace with the value of the last [setSpeed]
    before it; [cur] is the value left by the commands before the trace. *)
Fixpoint linear_speeds (cur : option Q) (cmds : list cmd)
    : list (cmd * option Q) :=
  match cmds with
  | [] => []
  | c :: t =>
      match c with
      | setSpeed v => linear_speeds (Some v) t
      | MoveL _ => (c, cur) :: linear_speeds cur t
      | _ => linear_speeds cur t
      end
  end.

(** Each joint move of a trace with the value of the last [setSpeedJoints]
    before it. *)
Fixpoint joint_speeds (cur : option Q) (cmds : list cmd)
    : list (cmd * option Q) :=
  match cmds with
  | [] => []
  | c :: t =>
      match c with
      | setSpeedJoints v => joint_speeds (Some v) t
      | MoveJ _ => (c, cur) :: joint_speeds cur t
      | _ => joint_speeds cur t
      end
  end.

(** The values that the script gives to the speed and acceleration
    settings. *)
Definition speed_setting_ok (c : cmd) : bool :=
  match c with
  | setSpeed v => Qeq_bool v 1000 || Qeq_bool v 200
  | setAcceleration a => Qeq_bool a GLOBAL_ACCELERATION
  | setSpeedJoints v => Qeq_bool v 700 || Qeq_bool v 200
  | _ => true
  end.

(** ** Segments that only append

    A computation only appends when, on any handle, it leaves the log it
    was given in place and adds to it the commands it sends to a fresh
    handle, with the same outcome. *)
Class Appends {A} (m : M A) : Prop :=
  appends : ∀ r : Robot, m r = (r ++ issued m, outcome m).

(** * Properties *)

(** ** The script only ever appends to the command log *)

Section appends.
Context {A B : Type}.

Lemma ret_appends (a : A) : Appends (mret a : M A).
Proof.
  intros r. unfold issued, outcome, mret, M_ret. simpl.
  by rewrite app_nil_r.
Qed.

Lemma lift_appends (x : result A) : Appends (lift x).
Proof.
  intros r. unfold issued, outcome, lift. simpl. by rewrite app_nil_r.
Qed.

Lemma bind_appends (m : M A) (f : A → M B) :
  Appends m → (∀ a, Appends (f a)) → Appends (m ≫= f).
Proof.
  intros Hm Hf r. unfold issued, outcome, mbind, M_bind.
  rewrite (Hm r), (Hm []). simpl.
  destruct (outcome m) as [a|e]; simpl.
  - rewrite (Hf a (r ++ issued m)), (Hf a (issued m)).
    simpl. by rewrite app_assoc.
  - done.
Qed.

Lemma if_appends (b : bool) (m1 m2 : M A) :
  Appends m1 → Appends m2 → Appends (if b then m1 else m2).
Proof. by destruct b. Qed.
End appends.

Lemma send_appends (c : cmd) : Appends (send c).
Proof. intros r. reflexivity. Qed.

Lemma for_each_appends {A} (l : list A) (body : A → M unit) :
  (∀ x, Appends (body x)) → Appends (for_each l body).
Proof.
  intros Hbody. induction l as [|x l IH]; simpl.
  - apply ret_appends.
  - apply bind_appends; [apply Hbody | intros _; exact IH].
Qed.

Ltac solve_appends :=
  repeat first
    [ apply send_appends | apply lift_appends | apply ret_appends
    | apply for_each_appends | apply if_appends | apply bind_appends
    | match goal with |- ∀ _, _ => intros end
    | progress cbv zeta ].

Lemma set_motion_params_appends speed acceleration :
  Appends (set_motion_params speed acceleration).
Proof. unfold set_motion_params. solve_appends. Qed.

Lemma goto_and_pickup_tray_appends slot ph ch :
  Appends (goto_and_pickup_tray slot ph ch).
Proof.
  unfold goto_and_pickup_tray.
  apply bind_appends; [apply set_motion_params_appends | intros _].
  solve_appends.
Qed.

Lemma goto_and_release_tray_appends slot rh ch :
  Appends (goto_and_release_tray slot rh ch).
Proof.
  unfold goto_and_release_tray.
  do 2 (apply bind_appends; [apply lift_appends | intros ?]).
  apply bind_appends; [apply set_motion_params_appends | intros _].
  solve_appends.
Qed.

Lemma move_endcap_to_pedestal_appends : Appends move_endcap_to_pedestal.
Proof.
  unfold move_endcap_to_pedestal.
  apply bind_appends; [apply set_motion_params_appends | intros _].
  solve_appends.
Qed.

Lemma pickup_from_clamp_appends ph ch : Appends (pickup_from_clamp ph ch).
Proof.
  unfold pickup_from_clamp.
  apply bind_appends; [apply set_motion_params_appends | intros _].
  solve_appends.
Qed.

Lemma release_into_clamp_appends rh ch : Appends (release_into_clamp rh ch).
Proof.
  unfold release_into_clamp.
  apply bind_appends; [apply set_motion_params_appends | intros _].
  solve_appends.
Qed.

Lemma tighten_cap_cycle_appends i : Appends (tighten_cap_cycle i).
Proof. unfold tighten_cap_cycle. solve_appends. Qed.

Lemma tighten_cap_appends : Appends tighten_cap.
Proof.
  unfold tighten_cap.
  apply bind_appends; [apply set_motion_params_appends | intros _].
  apply bind_appends; [apply lift_appends | intros clear; cbv zeta].
  do 4 (apply bind_appends; [apply send_appends | intros _]).
  apply bind_appends;
    [apply for_each_appends, tighten_cap_cycle_appends | intros _].
  solve_appends.
Qed.

Create HintDb appends.
#[global] Hint Resolve set_motion_params_appends goto_and_pickup_tray_appends
  goto_and_release_tray_appends move_endcap_to_pedestal_appends
  pickup_from_clamp_appends release_into_clamp_appends tighten_cap_appends
  send_appends lift_appends : appends.

Lemma main_appends : Appends main.
Proof.
  unfold main.
  repeat (apply bind_appends; [by auto with appends | intros ?]).
  apply send_appends.
Qed.

(** Running a segment on any handle: the log grows by the commands the
    segment sends to a fresh one. *)
Lemma run_trace {A} (m : M A) (cmds : list cmd) (o : result A) :
  Appends m → issued m = cmds → outcome m = o →
  ∀ r, m r = (r ++ cmds, o).
Proof. intros Hm <- <- r. apply Hm. Qed.

(** Two segments in a row send the commands of the first, then those of the
    second. *)
Lemma issued_seq {A B} (m : M A) (k : M B) :
  Appends m → Appends k →
  issued (m;; k) =
    issued m ++ match outcome m with Ok _ => issued k | Raise _ => [] end.
Proof.
  intros Hm Hk. unfold issued at 1, mbind, M_bind.
  rewrite (Hm []). simpl. destruct (outcome m); simpl.
  - by rewrite (Hk (issued m)).
  - by rewrite app_nil_r.
Qed.

(** ** The tray table *)

Lemma tray_coords_dom : dom tray_coords = ({[0; 1; 2; 3; 4]} : gset Z).
Proof.
  unfold tray_coords. rewrite !dom_insert_L, dom_empty_L. set_solver.
Qed.

Lemma tray_coords_None (slot : Z) :
  ¬ 0 ≤ slot ≤ 4 → tray_coords !! slot = None.
Proof.
  intros Hout. apply not_elem_of_dom. rewrite tray_coords_dom.
  set_unfold. lia.
Qed.

Lemma tray_coords_Some (slot : Z) :
  0 ≤ slot ≤ 4 → ∃ x y, tray_coords !! slot = Some [x; y].
Proof.
  intros Hin.
  assert (slot = 0 ∨ slot = 1 ∨ slot = 2 ∨ slot = 3 ∨ slot = 4)
    as [->|[->|[->|[->| ->]]]] by lia;
    eexists _, _; vm_compute; reflexivity.
Qed.

Lemma tray_pose_Some (slot : Z) (z x y : Q) :
  tray_coords !! slot = Some [x; y] →
  tray_pose slot z = Ok (mkPose x y z 180 0 90).
Proof. intros Hxy. unfold tray_pose, dict_get. by rewrite Hxy. Qed.

Lemma tray_pose_None (slot : Z) (z : Q) :
  tray_coords !! slot = None → tray_pose slot z = Raise KeyError.
Proof. intros Hxy. unfold tray_pose, dict_get. by rewrite Hxy. Qed.

(** C4.  For every tray slot id from 0 to 4 and every height z,
    [tray_pose slot z] returns a pose whose (x, y) is the coordinate
    configured for the slot in [tray_coords] and whose z is the requested
    height. *)
Theorem tray_pose_matches_config (slot : Z) (z : Q) :
  0 ≤ slot ≤ 4 →
  ∃ p, tray_pose slot z = Ok p
       ∧ tray_coords !! slot = Some [pose_x p; pose_y p]
       ∧ pose_z p = z.
Proof.
  intros Hin. destruct (tray_coords_Some slot Hin) as (x & y & Hxy).
  exists (mkPose x y z 180 0 90). split; [by apply tray_pose_Some | done].
Qed.

Lemma tray_pose_matches_config_witness :
  0 ≤ 3 ≤ 4
  ∧ ∃ p, tray_pose 3 60.9 = Ok p
         ∧ tray_coords !! 3 = Some [pose_x p; pose_y p]
         ∧ pose_z p = 60.9%Q.
Proof. split; [lia | apply (tray_pose_matches_config 3 60.9); lia]. Defined.

(** C6.  [tray_pose] is a pure function (it does not touch the robot
    handle); it returns a pose for every slot id of the configured set
    {0, 1, 2, 3, 4} and raises for every other slot id. *)
Theorem tray_pose_succeeds_iff_configured (slot : Z) (z : Q) :
  dom tray_coords = ({[0; 1; 2; 3; 4]} : gset Z)
  ∧ (slot ∈ dom tray_coords ↔ ∃ p, tray_pose slot z = Ok p)
  ∧ (slot ∉ dom tray_coords ↔ tray_pose slot z = Raise KeyError)
  ∧ (∀ r : Robot, lift (tray_pose slot z) r = (r, tray_pose slot z)).
Proof.
  split; [apply tray_coords_dom |].
  assert (slot ∈ dom tray_coords ↔ 0 ≤ slot ≤ 4) as Hdom.
  { rewrite tray_coords_dom. set_unfold. lia. }
  rewrite Hdom. destruct (decide (0 ≤ slot ≤ 4)) as [Hin|Hout].
  - destruct (tray_coords_Some slot Hin) as (x & y & Hxy).
    rewrite (tray_pose_Some slot z x y Hxy).
    repeat split; eauto; try done; try lia.
  - rewrite (tray_pose_None slot z (tray_coords_None slot Hout)).
    repeat split; try done; try lia;
      match goal with H : ∃ _, Raise _ = Ok _ |- _ => by destruct H end.
Qed.

(** ** Picking from and releasing into the tray *)

Lemma tray_coords_0 : tray_coords !! 0 = Some [-414.4; -456.17]%Q.
Proof. vm_compute. reflexivity. Qed.

Lemma issued_goto_and_pickup_tray (slot : Z) (ph ch x y : Q) :
  tray_coords !! slot = Some [x; y] →
  issued (goto_and_pickup_tray slot ph ch) =
    [setSpeed 1000; setAcceleration GLOBAL_ACCELERATION;
     MoveJ (if decide (slot = 0) then Joints ENDCAP_CLR_JOINTS
            else Cartesian (mkPose x y ch 180 0 90));
     MoveL (Cartesian (mkPose x y ph 180 0 90));
     RunCodeCustom "rq_close_and_wait()" INSTRUCTION_INSERT_CODE;
     MoveL (Cartesian (mkPose x y ch 180 0 90))]
  ∧ outcome (goto_and_pickup_tray slot ph ch) = Ok ().
Proof.
  intros Hxy. destruct (decide (slot = 0)) as [->|Hne].
  - rewrite tray_coords_0 in Hxy. injection Hxy as <- <-.
    split; vm_compute; reflexivity.
  - apply Z.eqb_neq in Hne.
    unfold issued, outcome, goto_and_pickup_tray.
    rewrite Hne, !(tray_pose_Some slot _ x y Hxy). split; reflexivity.
Qed.

(** C5.  For a configured slot, [goto_and_pickup_tray] sends the approach as
    its first move.  For slot 0 the approach is the joint move to
    [ENDCAP_CLR_JOINTS] and the trace has no joint-interpolated move to a
    pose; for any other slot the approach is the move to the tray pose at
    clear height. *)
Theorem goto_and_pickup_tray_approach
    (slot : Z) (ph ch x y : Q) (r : Robot) :
  tray_coords !! slot = Some [x; y] →
  let approach :=
    if decide (slot = 0) then Joints ENDCAP_CLR_JOINTS
    else Cartesian (mkPose x y ch 180 0 90) in
  let trace :=
    [setSpeed 1000; setAcceleration GLOBAL_ACCELERATION;
     MoveJ approach;
     MoveL (Cartesian (mkPose x y ph 180 0 90));
     RunCodeCustom "rq_close_and_wait()" INSTRUCTION_INSERT_CODE;
     MoveL (Cartesian (mkPose x y ch 180 0 90))] in
  goto_and_pickup_tray slot ph ch r = (r ++ trace, Ok ())
  ∧ first_move trace = Some (MoveJ approach)
  ∧ length (List.filter cartesian_MoveJ trace)
    = (if decide (slot = 0) then 0%nat else 1%nat)
  ∧ tray_pose slot ch = Ok (mkPose x y ch 180 0 90).
Proof.
  intros Hxy approach trace.
  destruct (issued_goto_and_pickup_tray slot ph ch x y Hxy) as [Hi Ho].
  split; [| split; [| split]].
  - apply run_trace;
      [apply goto_and_pickup_tray_appends | exact Hi | exact Ho].
  - reflexivity.
  - subst trace approach. by destruct (decide (slot = 0)).
  - by apply tray_pose_Some.
Qed.

Lemma goto_and_pickup_tray_approach_witness :
  tray_coords !! 2 = Some [-259.08; -457.45]%Q
  ∧ goto_and_pickup_tray 2 65.3 130 [] =
      ([setSpeed 1000; setAcceleration GLOBAL_ACCELERATION;
        MoveJ (Cartesian (mkPose (-259.08) (-457.45) 130 180 0 90));
        MoveL (Cartesian (mkPose (-259.08) (-457.45) 65.3 180 0 90));
        RunCodeCustom "rq_close_and_wait()" INSTRUCTION_INSERT_CODE;
        MoveL (Cartesian (mkPose (-259.08) (-457.45) 130 180 0 90))],
       Ok ()).
Proof.
  split; [vm_compute; reflexivity |].
  apply (goto_and_pickup_tray_approach 2 65.3 130 (-259.08) (-457.45) []).
  vm_compute; reflexivity.
Defined.

(** The slot-0 case of C5 on the call that [main] makes. *)
Example goto_and_pickup_tray_endcap :
  goto_and_pickup_tray 0 10 130 [] =
    ([setSpeed 1000; setAcceleration 500;
      MoveJ (Joints ENDCAP_CLR_JOINTS);
      MoveL (Cartesian (mkPose (-414.4) (-456.17) 10 180 0 90));
      RunCodeCustom "rq_close_and_wait()" 0;
      MoveL (Cartesian (mkPose (-414.4) (-456.17) 130 180 0 90))],
     Ok ()).
Proof. vm_compute. reflexivity. Qed.

(** A slot that is not configured: the motion parameters are set, then the
    lookup raises and no move is sent. *)
Lemma goto_and_pickup_tray_unconfigured (slot : Z) (ph ch : Q) (r : Robot) :
  ¬ 0 ≤ slot ≤ 4 →
  goto_and_pickup_tray slot ph ch r =
    (r ++ [setSpeed 1000; setAcceleration GLOBAL_ACCELERATION],
     Raise KeyError).
Proof.
  intros Hout. apply run_trace; [apply goto_and_pickup_tray_appends | |];
    unfold issued, outcome, goto_and_pickup_tray;
    (replace (slot =? 0) with false by (symmetry; apply Z.eqb_neq; lia));
    rewrite !(tray_pose_None slot _ (tray_coords_None slot Hout));
    reflexivity.
Qed.

(** A slot that is not configured: [tray_pose] raises before anything is
    sent. *)
Lemma goto_and_release_tray_unconfigured (slot : Z) (rh ch : Q) (r : Robot) :
  ¬ 0 ≤ slot ≤ 4 →
  goto_and_release_tray slot rh ch r = (r, Raise KeyError).
Proof.
  intros Hout. unfold goto_and_release_tray.
  rewrite !(tray_pose_None slot _ (tray_coords_None slot Hout)).
  reflexivity.
Qed.

(** C7.  For a configured slot, [goto_and_release_tray] sends, in order:
    the linear move to the tray pose at clear height, [setSpeed 200] (lower
    than the 1000 that [set_motion_params] has just set), the linear descent
    to the release height, the gripper-open command and the linear retract
    to the clear-height pose. *)
Theorem goto_and_release_tray_sequence
    (slot : Z) (rh ch x y : Q) (r : Robot) :
  tray_coords !! slot = Some [x; y] →
  goto_and_release_tray slot rh ch r =
    (r ++ issued (set_motion_params 1000 GLOBAL_ACCELERATION)
       ++ [MoveL (Cartesian (mkPose x y ch 180 0 90));
           setSpeed 200;
           MoveL (Cartesian (mkPose x y rh 180 0 90));
           RunCodeCustom "rq_open()" INSTRUCTION_INSERT_CODE;
           MoveL (Cartesian (mkPose x y ch 180 0 90))],
     Ok ())
  ∧ issued (set_motion_params 1000 GLOBAL_ACCELERATION)
    = [setSpeed 1000; setAcceleration GLOBAL_ACCELERATION]
  ∧ (200 < 1000)%Q
  ∧ tray_pose slot ch = Ok (mkPose x y ch 180 0 90)
  ∧ tray_pose slot rh = Ok (mkPose x y rh 180 0 90).
Proof.
  intros Hxy. split; [| split; [| split; [| split]]].
  - apply run_trace; [apply goto_and_release_tray_appends | |];
      unfold issued, outcome, goto_and_release_tray;
      rewrite !(tray_pose_Some slot _ x y Hxy); reflexivity.
  - reflexivity.
  - reflexivity.
  - by apply tray_pose_Some.
  - by apply tray_pose_Some.
Qed.

Lemma goto_and_release_tray_sequence_witness :
  tray_coords !! 4 = Some [-256.8; -458.1]%Q
  ∧ goto_and_release_tray 4 89.90 130 [] =
      ([setSpeed 1000; setAcceleration 500;
        MoveL (Cartesian (mkPose (-256.8) (-458.1) 130 180 0 90));
        setSpeed 200;
        MoveL (Cartesian (mkPose (-256.8) (-458.1) 89.90 180 0 90));
        RunCodeCustom "rq_open()" 0;
        MoveL (Cartesian (mkPose (-256.8) (-458.1) 130 180 0 90))],
       Ok ()).
Proof.
  split; [vm_compute; reflexivity |].
  apply (goto_and_release_tray_sequence 4 89.90 130 (-256.8) (-458.1) []).
  vm_compute; reflexivity.
Defined.

(** ** The clamp segments *)

Lemma tray_pose_cases (slot : Z) (z : Q) :
  (∃ x y, tray_coords !! slot = Some [x; y]
          ∧ tray_pose slot z = Ok (mkPose x y z 180 0 90))
  ∨ (¬ 0 ≤ slot ≤ 4 ∧ tray_pose slot z = Raise KeyError).
Proof.
  destruct (decide (0 ≤ slot ≤ 4)) as [Hin|Hout].
  - left. destruct (tray_coords_Some slot Hin) as (x & y & Hxy).
    exists x, y. split; [done | by apply tray_pose_Some].
  - right. split; [done |]. by apply tray_pose_None, tray_coords_None.
Qed.

(** A trace whose commands are all decided to keep the orientation. *)
Ltac decide_trace := apply (bool_decide_unpack _); vm_compute; exact I.

Lemma goto_and_pickup_tray_orientation (slot : Z) (ph ch : Q) :
  Forall orientation_ok (issued (goto_and_pickup_tray slot ph ch)).
Proof.
  destruct (tray_pose_cases slot ch) as [(x & y & Hxy & _)|[Hout _]].
  - destruct (issued_goto_and_pickup_tray slot ph ch x y Hxy) as [-> _].
    destruct (decide (slot = 0)); decide_trace.
  - pose proof (goto_and_pickup_tray_unconfigured slot ph ch [] Hout) as Hrun.
    unfold issued. rewrite Hrun. decide_trace.
Qed.

Lemma goto_and_release_tray_orientation (slot : Z) (rh ch : Q) :
  Forall orientation_ok (issued (goto_and_release_tray slot rh ch)).
Proof.
  unfold issued, goto_and_release_tray.
  destruct (tray_pose_cases slot ch) as [(x & y & Hxy & _)|[Hout _]].
  - rewrite !(tray_pose_Some slot _ x y Hxy). decide_trace.
  - rewrite !(tray_pose_None slot _ (tray_coords_None slot Hout)).
    decide_trace.
Qed.

(** C8.  Every pose that a tray or clamp operation sends, on any slot and
    with any heights, has orientation (180, 0, 90); the only other move
    targets are the explicit joint-angle targets.  The same holds for the
    pose that [tray_pose] returns and for every pose of the whole run. *)
Theorem fixed_orientation (slot : Z) (h1 h2 : Q) :
  Forall orientation_ok (issued (goto_and_pickup_tray slot h1 h2))
  ∧ Forall orientation_ok (issued (goto_and_release_tray slot h1 h2))
  ∧ Forall orientation_ok (issued (pickup_from_clamp h1 h2))
  ∧ Forall orientation_ok (issued (release_into_clamp h1 h2))
  ∧ Forall orientation_ok (issued tighten_cap)
  ∧ match tray_pose slot h1 with
    | Ok p => std_orientation p
    | Raise _ => True
    end
  ∧ Forall std_orientation (poses (issued main)).
Proof.
  split; [apply goto_and_pickup_tray_orientation |].
  split; [apply goto_and_release_tray_orientation |].
  do 3 (split; [decide_trace |]).
  split; [| decide_trace].
  destruct (tray_pose_cases slot h1) as [(x & y & _ & ->)|[_ ->]];
    [by repeat split | done].
Qed.

(** C10.  The only pose of [tighten_cap] is anchored at (-322.25, 38.78);
    the poses of [pickup_from_clamp] and [release_into_clamp] are anchored
    at [CLAMP_XY] = (-322.98, 38.3); the two anchors differ in x and in y. *)
Theorem tighten_cap_anchor (h1 h2 : Q) :
  poses (issued tighten_cap)
  = [mkPose new_clamp_x new_clamp_y 250 180 0 90]
  ∧ Forall (anchored_at (-322.25) 38.78) (poses (issued tighten_cap))
  ∧ CLAMP_XY = [-322.98; 38.3]%Q
  ∧ Forall (anchored_at (-322.98) 38.3)
      (poses (issued (pickup_from_clamp h1 h2)))
  ∧ Forall (anchored_at (-322.98) 38.3)
      (poses (issued (release_into_clamp h1 h2)))
  ∧ length (poses (issued (pickup_from_clamp h1 h2))) = 2%nat
  ∧ length (poses (issued (release_into_clamp h1 h2))) = 3%nat
  ∧ ¬ (new_clamp_x == -322.98)%Q
  ∧ ¬ (new_clamp_y == 38.3)%Q.
Proof.
  split; [vm_compute; reflexivity |].
  split; [decide_trace |].
  split; [reflexivity |].
  do 2 (split; [decide_trace |]).
  do 2 (split; [vm_compute; reflexivity |]).
  split; intros Heq; vm_compute in Heq; discriminate.
Qed.

(** [release_into_clamp] has the four steps: approach at clear height,
    descent, gripper open, retract. *)
Lemma release_into_clamp_four_steps (rh ch : Q) (r : Robot) :
  release_into_clamp rh ch r =
    (r ++ [setSpeed 1000; setAcceleration GLOBAL_ACCELERATION;
           MoveJ (Cartesian (mkPose (-322.98) 38.3 ch 180 0 90));
           setSpeed 200;
           MoveL (Cartesian (mkPose (-322.98) 38.3 rh 180 0 90));
           RunCodeCustom "rq_open()" INSTRUCTION_INSERT_CODE;
           MoveL (Cartesian (mkPose (-322.98) 38.3 ch 180 0 90))],
     Ok ())
  ∧ choreography (issued (release_into_clamp rh ch)) =
      [MoveJ (Cartesian (mkPose (-322.98) 38.3 ch 180 0 90));
       MoveL (Cartesian (mkPose (-322.98) 38.3 rh 180 0 90));
       RunCodeCustom "rq_open()" INSTRUCTION_INSERT_CODE;
       MoveL (Cartesian (mkPose (-322.98) 38.3 ch 180 0 90))].
Proof.
  split; [| vm_compute; reflexivity].
  apply run_trace; [apply release_into_clamp_appends | |];
    vm_compute; reflexivity.
Qed.

(** C3.  [release_into_clamp] follows the four-step pattern at [CLAMP_XY],
    but [pickup_from_clamp] does not: on the call that [main] makes it
    builds the clear-height pose and sends no move to it before the descent.
    Its first move is the linear descent to the pickup height, and its steps
    are three, not the four of its docstring and of [release_into_clamp]. *)
Theorem pickup_from_clamp_skips_approach (rh ch : Q) (r : Robot) :
  let safe_pose := mkPose (-322.98) 38.3 250 180 0 90 in
  let pickup_pose := mkPose (-322.98) 38.3 185 180 0 90 in
  pickup_from_clamp 185 250 r =
    (r ++ [setSpeed 1000; setAcceleration GLOBAL_ACCELERATION;
           setSpeed 200;
           MoveL (Cartesian pickup_pose);
           RunCodeCustom "rq_close_and_wait()" INSTRUCTION_INSERT_CODE;
           MoveL (Cartesian safe_pose)],
     Ok ())
  ∧ first_move (issued (pickup_from_clamp 185 250))
    = Some (MoveL (Cartesian pickup_pose))
  ∧ choreography (issued (pickup_from_clamp 185 250)) =
      [MoveL (Cartesian pickup_pose);
       RunCodeCustom "rq_close_and_wait()" INSTRUCTION_INSERT_CODE;
       MoveL (Cartesian safe_pose)]
  ∧ (∀ approach,
       choreography (issued (pickup_from_clamp 185 250)) ≠
         [approach;
          MoveL (Cartesian pickup_pose);
          RunCodeCustom "rq_close_and_wait()" INSTRUCTION_INSERT_CODE;
          MoveL (Cartesian safe_pose)])
  ∧ choreography (issued (release_into_clamp rh ch)) =
      [MoveJ (Cartesian (mkPose (-322.98) 38.3 ch 180 0 90));
       MoveL (Cartesian (mkPose (-322.98) 38.3 rh 180 0 90));
       RunCodeCustom "rq_open()" INSTRUCTION_INSERT_CODE;
       MoveL (Cartesian (mkPose (-322.98) 38.3 ch 180 0 90))].
Proof.
  intros safe_pose pickup_pose.
  split; [| split; [| split; [| split]]]; try (vm_compute; reflexivity).
  - apply run_trace; [apply pickup_from_clamp_appends | |];
      vm_compute; reflexivity.
  - intros approach Heq. apply (f_equal length) in Heq.
    vm_compute in Heq. discriminate.
Qed.

(** ** Tightening the cap *)

(** The loop over any list of indices repeats the cycle once per index. *)
Lemma for_each_tighten_cap_cycle (l : list nat) (r : Robot) :
  for_each l tighten_cap_cycle r =
    (r ++ concat (replicate (length l) (issued (tighten_cap_cycle 0))),
     Ok ()).
Proof.
  revert r. induction l as [|i l IH]; intros r; simpl.
  - by rewrite app_nil_r.
  - unfold mbind, M_bind.
    rewrite (tighten_cap_cycle_appends i r).
    change (outcome (tighten_cap_cycle i)) with (Ok () : result ()).
    change (issued (tighten_cap_cycle i)) with (issued (tighten_cap_cycle 0)).
    rewrite IH. by rewrite <- app_assoc.
Qed.

(** C2.  [tighten_cap] runs its open/close cycle between
    [final_turning_angle] and [initial_turning_angle] exactly 6 times; all
    cycles come before the torque-limited tightening command, which is sent
    once, and the unclamp command follows it as the last command. *)
Theorem tighten_cap_six_cycles (r : Robot) :
  let close := RunCodeCustom "rq_close_and_wait()" INSTRUCTION_INSERT_CODE in
  let open := RunCodeCustom "rq_open()" INSTRUCTION_INSERT_CODE in
  let torque :=
    RunCodeCustom "tighten_torque(2, -205.27, -115.27, 2, 2, 1, 100, 100, 50)"
      INSTRUCTION_INSERT_CODE in
  let cycle :=
    [close; MoveJ (Joints final_turning_angle); open; setSpeedJoints 200;
     MoveJ (Joints initial_turning_angle)] in
  (∀ i, issued (tighten_cap_cycle i) = cycle)
  ∧ (∀ r', for_each (range 6) tighten_cap_cycle r'
           = (r' ++ concat (replicate 6 cycle), Ok ()))
  ∧ tighten_cap r =
      (r ++ [setSpeed 1000; setAcceleration GLOBAL_ACCELERATION;
             RunCodeCustom "clamp()" INSTRUCTION_INSERT_CODE;
             MoveJ (Cartesian (mkPose new_clamp_x new_clamp_y 250 180 0 90));
             MoveL (Joints initial_turning_angle);
             setSpeedJoints 700]
         ++ concat (replicate 6 cycle)
         ++ [MoveJ (Joints tighten_torque_pose); torque; unclamp_cmd],
       Ok ())
  ∧ occurrences close (issued tighten_cap) = 6%nat
  ∧ occurrences (MoveJ (Joints final_turning_angle)) (issued tighten_cap)
    = 6%nat
  ∧ occurrences open (issued tighten_cap) = 6%nat
  ∧ occurrences torque (issued tighten_cap) = 1%nat
  ∧ last (issued tighten_cap) = Some unclamp_cmd.
Proof.
  intros close open torque cycle.
  split; [intros i; reflexivity |].
  split; [intros r'; apply (for_each_tighten_cap_cycle (range 6)) |].
  split; [| repeat split; vm_compute; reflexivity].
  apply run_trace; [apply tighten_cap_appends | |]; vm_compute; reflexivity.
Qed.

(** ** The clamp state *)

Lemma clamp_after_unclamp (s : clamp_state) (cmds : list cmd) :
  clamp_after s (cmds ++ [unclamp_cmd]) = Unclamped.
Proof. unfold clamp_after. rewrite foldl_app. reflexivity. Qed.

(** C9.  The unclamp command is idempotent on the clamp state: after any
    earlier commands and from any clamp state, sending it twice leaves the
    clamp as sending it once does, unclamped.  [main] starts with it, so
    the clamp is unclamped after the first command of [main] whatever the
    earlier run left, also when that earlier run was [main] itself. *)
Theorem unclamp_idempotent (s : clamp_state) (prior : list cmd) :
  clamp_after s (prior ++ [unclamp_cmd; unclamp_cmd])
  = clamp_after s (prior ++ [unclamp_cmd])
  ∧ clamp_after s (prior ++ [unclamp_cmd]) = Unclamped
  ∧ issued (send unclamp_cmd;; send unclamp_cmd) = [unclamp_cmd; unclamp_cmd]
  ∧ head (issued main) = Some unclamp_cmd
  ∧ clamp_after s (prior ++ take 1 (issued main)) = Unclamped
  ∧ clamp_after s (issued main) = Unclamped
  ∧ clamp_after s (issued main ++ take 1 (issued main))
    = clamp_after s (issued main).
Proof.
  assert (take 1 (issued main) = [unclamp_cmd]) as Hfirst
    by (vm_compute; reflexivity).
  assert (clamp_after s (issued main) = Unclamped) as Hend
    by (destruct s; vm_compute; reflexivity).
  rewrite Hfirst, Hend, !clamp_after_unclamp.
  replace (prior ++ [unclamp_cmd; unclamp_cmd])
    with ((prior ++ [unclamp_cmd]) ++ [unclamp_cmd])
    by (by rewrite <- app_assoc).
  rewrite clamp_after_unclamp.
  repeat split; vm_compute; reflexivity.
Qed.

(** ** The whole run *)

(** The configured coordinates are pairwise distinct: a tray coordinate
    gives its slot back. *)
Lemma slot_at_tray_coords (slot : Z) (x y : Q) :
  tray_coords !! slot = Some [x; y] → slot_at x y = Some slot.
Proof.
  intros Hxy.
  destruct (decide (0 ≤ slot ≤ 4)) as [Hin|Hout];
    [| by rewrite (tray_coords_None slot Hout) in Hxy].
  assert (slot = 0 ∨ slot = 1 ∨ slot = 2 ∨ slot = 3 ∨ slot = 4)
    as [->|[->|[->|[->| ->]]]] by lia;
    vm_compute in Hxy; injection Hxy as <- <-; vm_compute; reflexivity.
Qed.

(** The claim that the move to home is the first action of [main] fails:
    the first action is the unclamp command. *)
Lemma main_first_action_is_not_home :
  ¬ (visited_slots (issued main) = [0; 2; 1; 3; 4]
     ∧ head (issued main) = Some (MoveJ (Joints HOME_POSITION))
     ∧ last (issued main) = Some (MoveJ (Joints HOME_POSITION))).
Proof. intros (_ & Hfirst & _). vm_compute in Hfirst. discriminate. Qed.

(** C1, amended.  [main] runs to its end; its moves visit the tray slots in
    the order 0, 2, 1, 3, 4, through the four calls of
    [goto_and_pickup_tray] and the call of [goto_and_release_tray]; its
    first command is the unclamp command, the move to [HOME_POSITION] is
    its second command and its first move, and the move to [HOME_POSITION]
    is its last command. *)
Theorem main_sequence :
  (∀ r, main r = (r ++ issued main, Ok ()))
  ∧ visited_slots (issued main) = [0; 2; 1; 3; 4]
  ∧ issued main =
      [unclamp_cmd; MoveJ (Joints HOME_POSITION)]
      ++ issued (set_motion_params 1000 GLOBAL_ACCELERATION)
      ++ issued (goto_and_pickup_tray 0 10 CLEAR_HEIGHT)
      ++ issued move_endcap_to_pedestal
      ++ issued (goto_and_pickup_tray 2 65.3 CLEAR_HEIGHT)
      ++ issued (release_into_clamp 163.9 250)
      ++ issued (goto_and_pickup_tray 1 34 CLEAR_HEIGHT)
      ++ issued (release_into_clamp 192.751 250)
      ++ issued (goto_and_pickup_tray 3 60.9 CLEAR_HEIGHT)
      ++ issued tighten_cap
      ++ issued (pickup_from_clamp 185 250)
      ++ issued (goto_and_release_tray 4 89.90 CLEAR_HEIGHT)
      ++ [MoveJ (Joints HOME_POSITION)]
  ∧ visited_slots <$>
      [issued (goto_and_pickup_tray 0 10 CLEAR_HEIGHT);
       issued (goto_and_pickup_tray 2 65.3 CLEAR_HEIGHT);
       issued (goto_and_pickup_tray 1 34 CLEAR_HEIGHT);
       issued (goto_and_pickup_tray 3 60.9 CLEAR_HEIGHT);
       issued (goto_and_release_tray 4 89.90 CLEAR_HEIGHT)]
    = [[0]; [2]; [1]; [3]; [4]]
  ∧ visited_slots <$>
      [issued move_endcap_to_pedestal;
       issued (release_into_clamp 163.9 250);
       issued (release_into_clamp 192.751 250);
       issued tighten_cap;
       issued (pickup_from_clamp 185 250)]
    = [[]; []; []; []; []]
  ∧ head (issued main) = Some unclamp_cmd
  ∧ issued main !! 1%nat = Some (MoveJ (Joints HOME_POSITION))
  ∧ first_move (issued main) = Some (MoveJ (Joints HOME_POSITION))
  ∧ last (issued main) = Some (MoveJ (Joints HOME_POSITION)).
Proof.
  split.
  - intros r. apply run_trace; [apply main_appends | reflexivity |].
    vm_compute. reflexivity.
  - repeat split; vm_compute; reflexivity.
Qed.

(** * Further properties of the segments *)

(** ** What a tray segment sends, for any slot id *)

Lemma issued_goto_and_pickup_tray_cases (slot : Z) (ph ch : Q) :
  (∃ x y, 0 ≤ slot ≤ 4 ∧ tray_coords !! slot = Some [x; y]
     ∧ issued (goto_and_pickup_tray slot ph ch) =
         [setSpeed 1000; setAcceleration GLOBAL_ACCELERATION;
          MoveJ (if decide (slot = 0) then Joints ENDCAP_CLR_JOINTS
                 else Cartesian (mkPose x y ch 180 0 90));
          MoveL (Cartesian (mkPose x y ph 180 0 90));
          close_cmd;
          MoveL (Cartesian (mkPose x y ch 180 0 90))])
  ∨ (¬ 0 ≤ slot ≤ 4
     ∧ issued (goto_and_pickup_tray slot ph ch) =
         [setSpeed 1000; setAcceleration GLOBAL_ACCELERATION]).
Proof.
  destruct (decide (0 ≤ slot ≤ 4)) as [Hin|Hout].
  - left. destruct (tray_coords_Some slot Hin) as (x & y & Hxy).
    exists x, y. split; [done |]. split; [done |].
    by destruct (issued_goto_and_pickup_tray slot ph ch x y Hxy) as [-> _].
  - right. split; [done |]. unfold issued.
    by rewrite (goto_and_pickup_tray_unconfigured slot ph ch [] Hout).
Qed.

Lemma issued_goto_and_release_tray_cases (slot : Z) (rh ch : Q) :
  (∃ x y, 0 ≤ slot ≤ 4 ∧ tray_coords !! slot = Some [x; y]
     ∧ issued (goto_and_release_tray slot rh ch) =
         [setSpeed 1000; setAcceleration GLOBAL_ACCELERATION;
          MoveL (Cartesian (mkPose x y ch 180 0 90));
          setSpeed 200;
          MoveL (Cartesian (mkPose x y rh 180 0 90));
          open_cmd;
          MoveL (Cartesian (mkPose x y ch 180 0 90))])
  ∨ (¬ 0 ≤ slot ≤ 4 ∧ issued (goto_and_release_tray slot rh ch) = []).
Proof.
  destruct (decide (0 ≤ slot ≤ 4)) as [Hin|Hout].
  - left. destruct (tray_coords_Some slot Hin) as (x & y & Hxy).
    exists x, y. split; [done |]. split; [done |].
    unfold issued, goto_and_release_tray.
    by rewrite !(tray_pose_Some slot _ x y Hxy).
  - right. split; [done |]. unfold issued.
    by rewrite (goto_and_release_tray_unconfigured slot rh ch [] Hout).
Qed.

(** X1.  On a slot id outside 0..4, [goto_and_pickup_tray] has already set
    the speed and the acceleration when the table lookup raises [KeyError]:
    the two settings stay in the log, and no move and no gripper command is
    sent. *)
Theorem pickup_tray_unconfigured_raises
    (slot : Z) (ph ch : Q) (r : Robot) :
  ¬ 0 ≤ slot ≤ 4 →
  goto_and_pickup_tray slot ph ch r =
    (r ++ [setSpeed 1000; setAcceleration GLOBAL_ACCELERATION],
     Raise KeyError)
  ∧ choreography (issued (goto_and_pickup_tray slot ph ch)) = [].
Proof.
  intros Hout.
  pose proof (goto_and_pickup_tray_unconfigured slot ph ch) as Hrun.
  split; [by apply Hrun |]. unfold issued. by rewrite (Hrun [] Hout).
Qed.

Lemma pickup_tray_unconfigured_raises_witness :
  ¬ 0 ≤ 7 ≤ 4
  ∧ goto_and_pickup_tray 7 10 130 [] =
      ([setSpeed 1000; setAcceleration GLOBAL_ACCELERATION], Raise KeyError).
Proof.
  split; [lia |]. apply (pickup_tray_unconfigured_raises 7 10 130 []). lia.
Defined.

(** X2.  On a slot id outside 0..4, [goto_and_release_tray] raises
    [KeyError] before it sends anything: the robot log is left as it was. *)
Theorem release_tray_unconfigured_raises
    (slot : Z) (rh ch : Q) (r : Robot) :
  ¬ 0 ≤ slot ≤ 4 →
  goto_and_release_tray slot rh ch r = (r, Raise KeyError).
Proof. apply goto_and_release_tray_unconfigured. Qed.

Lemma release_tray_unconfigured_raises_witness :
  ¬ 0 ≤ -1 ≤ 4
  ∧ goto_and_release_tray (-1) 89.90 130 [setSpeed 200] =
      ([setSpeed 200], Raise KeyError).
Proof.
  split; [lia |].
  apply (release_tray_unconfigured_raises (-1) 89.90 130 [setSpeed 200]).
  lia.
Defined.

(** X3.  [tray_pose] is injective: two calls that return the same pose were
    made with the same slot id and the same height.  No two tray slots
    share a coordinate. *)
Theorem tray_pose_injective (slot slot' : Z) (z z' : Q) (p : Pose) :
  tray_pose slot z = Ok p → tray_pose slot' z' = Ok p →
  slot = slot' ∧ z = z'.
Proof.
  intros Hp Hp'.
  destruct (tray_pose_cases slot z) as [(x & y & Hxy & Heq)|[_ Heq]];
    rewrite Heq in Hp; [| discriminate].
  destruct (tray_pose_cases slot' z') as [(x' & y' & Hxy' & Heq')|[_ Heq']];
    rewrite Heq' in Hp'; [| discriminate].
  injection Hp as <-. injection Hp' as Hx Hy Hz. subst x' y' z'.
  split; [| done].
  apply slot_at_tray_coords in Hxy, Hxy'. congruence.
Qed.

Lemma tray_pose_injective_witness :
  tray_pose 2 130 = Ok (mkPose (-259.08) (-457.45) 130 180 0 90)
  ∧ 2 = 2 ∧ 130%Q = 130%Q.
Proof.
  split; [vm_compute; reflexivity |].
  apply (tray_pose_injective 2 2 130 130
           (mkPose (-259.08) (-457.45) 130 180 0 90));
    vm_compute; reflexivity.
Defined.

(** ** The endcap relay *)


(** ** The gripper *)

Ltac tray_cases slot h1 h2 :=
  destruct (issued_goto_and_pickup_tray_cases slot h1 h2)
    as [(?x & ?y & ?Hin & _ & ->)|[?Hout ->]];
  destruct (issued_goto_and_release_tray_cases slot h1 h2)
    as [(?x & ?y & ?Hin & _ & ->)|[?Hout ->]];
  try contradiction;
  destruct (decide (0 ≤ slot ≤ 4)); try contradiction;
  try destruct (decide (slot = 0)).

(** X5.  For any slot id and heights, a pickup segment never opens the
    gripper and a release segment never closes it.  A segment that runs to
    its end actuates the gripper exactly once; the tray segments send no
    gripper command on a slot id outside 0..4. *)
Theorem gripper_discipline (slot : Z) (h1 h2 : Q) :
  occurrences open_cmd (issued (goto_and_pickup_tray slot h1 h2)) = 0%nat
  ∧ occurrences close_cmd (issued (goto_and_pickup_tray slot h1 h2))
    = (if decide (0 ≤ slot ≤ 4) then 1%nat else 0%nat)
  ∧ occurrences close_cmd (issued (goto_and_release_tray slot h1 h2)) = 0%nat
  ∧ occurrences open_cmd (issued (goto_and_release_tray slot h1 h2))
    = (if decide (0 ≤ slot ≤ 4) then 1%nat else 0%nat)
  ∧ occurrences open_cmd (issued (pickup_from_clamp h1 h2)) = 0%nat
  ∧ occurrences close_cmd (issued (pickup_from_clamp h1 h2)) = 1%nat
  ∧ occurrences close_cmd (issued (release_into_clamp h1 h2)) = 0%nat
  ∧ occurrences open_cmd (issued (release_into_clamp h1 h2)) = 1%nat.
Proof.
  tray_cases slot h1 h2; repeat split; vm_compute; reflexivity.
Qed.

Ltac eval_actuations :=
  repeat match goal with
  | |- context [actuations ?l] =>
      let v := eval vm_compute in (actuations l) in
      replace (actuations l) with v by (vm_compute; reflexivity)
  end.

Ltac all_vertical :=
  repeat (apply Forall_cons_2; [eexists _, _; repeat split; reflexivity |]);
  apply Forall_nil_2.


(** ** Speeds *)

(** X7.  Every segment sets the linear speed before its first linear move,
    so the speed of its linear moves does not depend on what ran before.
    [goto_and_pickup_tray] makes its descent and its retract at 1000; the
    other tray and clamp segments slow down to 200 before the descent and
    stay at 200 for the retract. *)
Theorem linear_speed_set_by_segment
    (slot : Z) (h1 h2 : Q) (cur cur' : option Q) :
  Forall (λ cmds, linear_speeds cur cmds = linear_speeds cur' cmds)
    [issued (goto_and_pickup_tray slot h1 h2);
     issued (goto_and_release_tray slot h1 h2);
     issued move_endcap_to_pedestal;
     issued (pickup_from_clamp h1 h2);
     issued (release_into_clamp h1 h2);
     issued tighten_cap]
  ∧ (linear_speeds cur (issued (goto_and_pickup_tray slot h1 h2))).*2
    = (if decide (0 ≤ slot ≤ 4) then [Some 1000; Some 1000]%Q else [])
  ∧ (linear_speeds cur (issued (goto_and_release_tray slot h1 h2))).*2
    = (if decide (0 ≤ slot ≤ 4) then [Some 1000; Some 200; Some 200]%Q
       else [])
  ∧ (linear_speeds cur (issued (pickup_from_clamp h1 h2))).*2
    = [Some 200; Some 200]%Q
  ∧ (linear_speeds cur (issued (release_into_clamp h1 h2))).*2
    = [Some 200; Some 200]%Q.
Proof.
  tray_cases slot h1 h2;
    (split;
     [ repeat (apply Forall_cons_2; [vm_compute; reflexivity |]);
       apply Forall_nil_2
     | repeat split; vm_compute; reflexivity ]).
Qed.


(** X9.  For any slot id and heights, the only linear speeds the segments
    set are 1000 and 200, the only acceleration is [GLOBAL_ACCELERATION],
    and the only joint speeds are 700 and 200.  [GLOBAL_SPEED] is not among
    them: no segment sets the speed to the global default. *)
Theorem speed_settings_fixed (slot : Z) (h1 h2 : Q) :
  Forall (λ cmds, forallb speed_setting_ok cmds = true)
    [issued (goto_and_pickup_tray slot h1 h2);
     issued (goto_and_release_tray slot h1 h2);
     issued move_endcap_to_pedestal;
     issued (pickup_from_clamp h1 h2);
     issued (release_into_clamp h1 h2);
     issued tighten_cap;
     issued main]
  ∧ speed_setting_ok (setSpeed GLOBAL_SPEED) = false.
Proof.
  split; [| reflexivity].
  tray_cases slot h1 h2;
    repeat (apply Forall_cons_2; [vm_compute; reflexivity |]);
    apply Forall_nil_2.
Qed.

(** ** The clamp segments at any heights *)


(** ** Heights *)

(** X11.  Every grip height of [GRIP_HEIGHTS] lies below [CLEAR_HEIGHT] and
    no height of [CLAMP_HEIGHTS] lies above its "clear" entry.  In [main]
    the gripper acts between two poses eight times, and each time the pose
    before it is strictly lower than the pose after it: every descent goes
    down and every retract goes up. *)
Theorem descents_below_clear :
  map_Forall (λ _ h, (h < CLEAR_HEIGHT)%Q) GRIP_HEIGHTS
  ∧ CLAMP_HEIGHTS !! "clear" = Some 250%Q
  ∧ map_Forall (λ _ h, (h <= 250)%Q) CLAMP_HEIGHTS
  ∧ stroke_heights (issued main) =
      [(10, 130); (65.3, 130); (163.9, 250); (34, 130); (192.751, 250);
       (60.9, 130); (185, 250); (89.90, 130)]%Q
  ∧ Forall (λ lh : Q * Q, (lh.1 < lh.2)%Q) (stroke_heights (issued main)).
Proof.
  split; [| split; [| split; [| split]]].
  - unfold GRIP_HEIGHTS.
    repeat (apply map_Forall_insert_2; [exact eq_refl |]).
    apply map_Forall_empty.
  - vm_compute. reflexivity.
  - unfold CLAMP_HEIGHTS.
    repeat (apply map_Forall_insert_2; [by vm_compute |]).
    apply map_Forall_empty.
  - vm_compute. reflexivity.
  - assert (stroke_heights (issued main) =
      [(10, 130); (65.3, 130); (163.9, 250); (34, 130); (192.751, 250);
       (60.9, 130); (185, 250); (89.90, 130)]%Q) as ->
      by (vm_compute; reflexivity).
    repeat (apply Forall_cons_2; [exact eq_refl |]). apply Forall_nil_2.
Qed.
